(** * The authenticated request pipeline of the LMS front end

    A shallow embedding of [frontend/src/utils/useAxios.js]: the hook that
    builds an axios client carrying the bearer token read from the cookie
    jar, and whose request interceptor renews an expired access token before
    the request leaves the browser.

    JavaScript effects are made explicit.  A computation is a function from
    the state of the browser tab (cookie jar, clock, the refresh endpoint of
    the backend, the log of renewal calls, the console) to a result, which is
    either a value or a thrown error, and the state afterwards.  [await] is
    sequencing: one interception is followed from its start to its end. *)

From Stdlib Require Import ZArith.
From stdpp Require Import base strings gmap.

Local Open Scope string_scope.

(** ** Types of [frontend/src/types] *)

Record DecodedToken := mkDecodedToken {
  token_type : string;
  exp : Z;
  iat : Z;
  jti : string;
  user_id : Z;
  full_name : string;
  email : string;
  username : string
}.

Record TokenResponse := mkTokenResponse {
  access : string;
  refresh : string
}.

(** ** JavaScript values that the hook tests

    [Cookies.get] yields a string or [undefined]; [undefined] is [None]. *)

Module Js.

(** Truthiness of a [string | undefined]: [undefined] and the empty string
    are falsy. *)
Definition truthy (v : option string) : bool :=
  match v with
  | Some s => negb (String.eqb s "")
  | None => false
  end.

(** String conversion inside a template literal. *)
Definition to_string (v : option string) : string :=
  match v with
  | Some s => s
  | None => "undefined"
  end.

End Js.

(** ** The browser tab and the backend seen from it *)

(** What the token refresh endpoint answers to one call. *)
Inductive Reply :=
| NetworkError
| ErrorStatus (code : Z)
| NewPair (data : TokenResponse).

(** [refresh_endpoint] is the backend: its answer may depend on the refresh
    tokens it was sent before (a backend that rotates refresh tokens rejects
    one presented a second time).  [renewals] lists the refresh tokens sent
    to it so far, the latest first. *)
Record World := mkWorld {
  cookies : gmap string string;
  clock : Z;
  refresh_endpoint : list string -> string -> Reply;
  renewals : list string;
  console : list string
}.

Definition with_cookies (c : gmap string string) (w : World) : World :=
  mkWorld c (clock w) (refresh_endpoint w) (renewals w) (console w).

Definition with_renewals (l : list string) (w : World) : World :=
  mkWorld (cookies w) (clock w) (refresh_endpoint w) l (console w).

Definition with_console (l : list string) (w : World) : World :=
  mkWorld (cookies w) (clock w) (refresh_endpoint w) (renewals w) l.

(** ** Computations that may throw *)

Inductive Error :=
| AxiosError (status : option Z)
| TypeError (msg : string).

Inductive Result (A : Type) :=
| Ok (a : A)
| Throw (e : Error).

Arguments Ok {A} a.
Arguments Throw {A} e.

Definition M (A : Type) : Type := World -> Result A * World.

Definition ret {A} (a : A) : M A := fun w => (Ok a, w).

Definition throw {A} (e : Error) : M A := fun w => (Throw e, w).

Definition bind {A B} (c : M A) (k : A -> M B) : M B :=
  fun w =>
    match c w with
    | (Ok a, w') => k a w'
    | (Throw e, w') => (Throw e, w')
    end.

(** [try { body } catch (error) { handler }]: what [body] did to the state
    before it threw stays done. *)
Definition try_catch {A} (body : M A) (handler : Error -> M A) : M A :=
  fun w =>
    match body w with
    | (Ok a, w') => (Ok a, w')
    | (Throw e, w') => handler e w'
    end.

Notation "x <- c1 ;; c2" := (bind c1 (fun x => c2))
  (at level 100, c1 at next level, right associativity).
Notation "c1 ;; c2" := (bind c1 (fun _ => c2))
  (at level 100, right associativity).

Definition console_log (msg : string) : M unit :=
  fun w => (Ok tt, with_console (msg :: console w) w).

(** ** js-cookie *)

Module Cookies.

Definition get (name : string) : M (option string) :=
  fun w => (Ok (cookies w !! name), w).

Definition set (name value : string) : M unit :=
  fun w => (Ok tt, with_cookies (<[name := value]> (cookies w)) w).

End Cookies.

(** ** axios, as far as the hook uses it

    A request configuration with its headers; an instance with its default
    headers and its request interceptors.  [axios_request] computes the
    configuration that is handed to the transport: the defaults merged under
    the caller's own headers, then passed through the interceptors.  The
    transport itself and the response are outside the pipeline.

    Only what the hook and the caller put on a request is followed.  What
    the library adds by itself is left out: its built-in default headers
    ([Accept], a [Content-Type] for bodies), the lower-casing of the method,
    and the matching of header names without regard to case.  The results
    about [Authorization] do not depend on them; nothing below is meant as
    a statement about those other headers of a request built by axios. *)

Record Request := mkRequest {
  url : string;
  method : string;
  headers : gmap string string
}.

Definition set_header (name value : string) (req : Request) : Request :=
  mkRequest (url req) (method req) (<[name := value]> (headers req)).

Record AxiosInstance := mkAxiosInstance {
  baseURL : string;
  default_headers : gmap string string;
  request_interceptors : list (Request -> M Request)
}.

Definition axios_create (base : string) (hdrs : gmap string string)
  : AxiosInstance :=
  mkAxiosInstance base hdrs [].

Definition interceptors_request_use
    (inst : AxiosInstance) (f : Request -> M Request) : AxiosInstance :=
  mkAxiosInstance (baseURL inst) (default_headers inst)
                  (f :: request_interceptors inst).

Definition merge_config (inst : AxiosInstance) (config : Request) : Request :=
  mkRequest (url config) (method config)
            (headers config ∪ default_headers inst).

Fixpoint run_interceptors (fs : list (Request -> M Request)) (req : Request)
  : M Request :=
  match fs with
  | [] => ret req
  | f :: fs' => req' <- f req ;; run_interceptors fs' req'
  end.

Definition axios_request (inst : AxiosInstance) (config : Request)
  : M Request :=
  run_interceptors (request_interceptors inst) (merge_config inst config).

Definition axios_get (inst : AxiosInstance) (u : string) : M Request :=
  axios_request inst (mkRequest u "get" ∅).

Definition axios_post (inst : AxiosInstance) (u : string) : M Request :=
  axios_request inst (mkRequest u "post" ∅).

(** ** [useAxios]

    The three helpers come from [./auth] and the base address from
    [./constants]; the hook is written over them as it imports them. *)

Section UseAxios.

Variable isAccessTokenExpired : string -> M bool.
Variable getRefreshedToken : string -> M TokenResponse.
Variable setAuthUser : string -> string -> M unit.
Variable API_BASE_URL : string.

(** The function passed to [axiosInstance.interceptors.request.use]; it
    closes over the two constants read when the hook ran.  The assignment
    to [req.headers.Authorization] is the last statement of the [try]
    block, so the block yields the request with the header replaced and
    the handler yields the request as it came in. *)
Definition interceptor (accessToken refreshToken : option string)
    (req : Request) : M Request :=
  if negb (Js.truthy accessToken) || negb (Js.truthy refreshToken) then
    ret req
  else
    expired <- isAccessTokenExpired (Js.to_string accessToken) ;;
    if negb expired then
      ret req
    else
      try_catch
        (response <- getRefreshedToken (Js.to_string refreshToken) ;;
         setAuthUser (access response) (refresh response) ;;
         ret (set_header "Authorization"
                         ("Bearer " +:+ access response) req))
        (fun error =>
           console_log "Token refresh failed, user needs to re-authenticate" ;;
           ret req).

Definition useAxios : M AxiosInstance :=
  accessToken <- Cookies.get "access_token" ;;
  refreshToken <- Cookies.get "refresh_token" ;;
  let axiosInstance :=
    axios_create API_BASE_URL
      (if Js.truthy accessToken
       then {[ "Authorization" := "Bearer " +:+ Js.to_string accessToken ]}
       else ∅) in
  let axiosInstance :=
    interceptors_request_use axiosInstance
      (interceptor accessToken refreshToken) in
  ret axiosInstance.

End UseAxios.

(** ** The helpers of [./auth] *)

Module Auth.

(** Modelled from the spec: the wall clock read by the expiry test, which
    is part of the missing [./auth]; an instant in seconds, the unit of the
    expiry claim. *)
Definition now : M Z := fun w => (Ok (clock w), w).

(** Modelled from the spec: the renewal call made by the missing
    [getRefreshedToken].  It accepts a refresh token and is answered by a new
    pair, an error status or a network error; the call is recorded. *)
Definition post_token_refresh (refresh_token : string) : M Reply :=
  fun w =>
    (Ok (refresh_endpoint w (renewals w) refresh_token),
     with_renewals (refresh_token :: renewals w) w).

Section Decoder.

(** The decoder of the jwt-decode package: the claims of a well-formed
    token, nothing for a string that is not one. *)
Variable jwt_decode : string -> option DecodedToken.

(** Modelled from the spec: the expiry decision of the missing
    [isAccessTokenExpired], as a function of the token and the instant.  The
    token is good while the instant is before its expiry claim; a token that
    cannot be decoded counts as expired. *)
Definition expired_at (access_token : string) (t : Z) : bool :=
  match jwt_decode access_token with
  | Some claims => negb (t <? exp claims)%Z
  | None => true
  end.

(** Modelled from the spec: [isAccessTokenExpired] of [./auth] is not
    among the sources.  The expiry claim is decoded without a network
    call; the token is still good while the current time is before its
    expiry; a token that cannot be decoded counts as expired and nothing
    is raised. *)
Definition isAccessTokenExpired (access_token : string) : M bool :=
  t <- now ;;
  ret (expired_at access_token t).

End Decoder.

(** Modelled from the spec: [getRefreshedToken] of [./auth] is not among
    the sources.  One renewal call to the refresh endpoint of the backend,
    supplying the refresh token; the endpoint returns a new pair or an
    error status; a network error and an error status are failures. *)
Definition getRefreshedToken (refresh_token : string) : M TokenResponse :=
  reply <- post_token_refresh refresh_token ;;
  match reply with
  | NewPair data => ret data
  | ErrorStatus code => throw (AxiosError (Some code))
  | NetworkError => throw (AxiosError None)
  end.

(** Modelled from the spec: [setAuthUser] of [./auth] is not among the
    sources.  It persists the new access and refresh pair: two string
    values under the fixed keys of the persisted session state. *)
Definition setAuthUser (access_token refresh_token : string) : M unit :=
  Cookies.set "access_token" access_token ;;
  Cookies.set "refresh_token" refresh_token.

End Auth.

(** ** The pipeline assembled, and the vocabulary of its contract *)

Section Pipeline.

Variable jwt_decode : string -> option DecodedToken.
Variable API_BASE_URL : string.

(** [useAxios] linked with the helpers of [./auth]. *)
Definition client : M AxiosInstance :=
  useAxios (Auth.isAccessTokenExpired jwt_decode)
           Auth.getRefreshedToken Auth.setAuthUser API_BASE_URL.

(** The interceptor that [useAxios] registers, linked the same way. *)
Definition hook_interceptor
  : option string -> option string -> Request -> M Request :=
  interceptor (Auth.isAccessTokenExpired jwt_decode)
              Auth.getRefreshedToken Auth.setAuthUser.

(** The token is decodable and the instant is before its expiry claim. *)
Definition Valid (tok : string) (t : Z) : Prop :=
  ∃ claims, jwt_decode tok = Some claims ∧ (t < exp claims)%Z.

(** The token is decodable and its expiry claim has been reached. *)
Definition Expired (tok : string) (t : Z) : Prop :=
  ∃ claims, jwt_decode tok = Some claims ∧ (exp claims <= t)%Z.

Definition Unparseable (tok : string) : Prop :=
  jwt_decode tok = None.

End Pipeline.

(** A credential is stored under [name] when the cookie exists and is not
    the empty string; it is missing otherwise. *)
Definition stored (name : string) (w : World) (tok : string) : Prop :=
  cookies w !! name = Some tok ∧ tok ≠ "".

Definition missing (name : string) (w : World) : Prop :=
  Js.truthy (cookies w !! name) = false.

(** The outgoing request carries [tok] as its bearer credential. *)
Definition carries (req : Request) (tok : string) : Prop :=
  headers req !! "Authorization" = Some ("Bearer " +:+ tok).

(** The caller put no [Authorization] header of its own on the request, as
    in [useAxios().get(url)] and [useAxios().post(url, data)]. *)
Definition plain (config : Request) : Prop :=
  headers config !! "Authorization" = None.

(** The renewal call did not yield a new pair. *)
Definition failed (reply : Reply) : Prop :=
  match reply with
  | NewPair _ => False
  | _ => True
  end.

(** During the step from [w] to [w'] one renewal call was made, it was
    answered with a new pair, and [tok] is the access token of that pair. *)
Definition renewed_in (w w' : World) (tok : string) : Prop :=
  ∃ r data,
    renewals w' = r :: renewals w ∧
    refresh_endpoint w (renewals w) r = NewPair data ∧
    tok = access data.


(** ** A small session used to run the pipeline

    A token issued at instant 0 with a lifetime of five minutes, the pair
    that replaces it, and a backend that honours a refresh token once. *)

Module Sample.

Definition claims_until (t : Z) : DecodedToken :=
  mkDecodedToken "access" t (t - 300) "7f3a" 12 "Ada Lovelace"
                 "ada@example.com" "ada".

Definition decode (tok : string) : option DecodedToken :=
  if String.eqb tok "access-1" then Some (claims_until 300)
  else if String.eqb tok "access-2" then Some (claims_until 900)
  else None.

Definition pair2 : TokenResponse := mkTokenResponse "access-2" "refresh-2".

Definition one_use_backend (history : list string) (rt : string) : Reply :=
  if String.eqb rt "refresh-1" then
    match history with
    | [] => NewPair pair2
    | _ => ErrorStatus 401
    end
  else ErrorStatus 401.

Definition offline_backend (history : list string) (rt : string) : Reply :=
  NetworkError.

Definition jar : gmap string string :=
  {[ "access_token" := "access-1"; "refresh_token" := "refresh-1" ]}.

Definition jar_without_refresh : gmap string string :=
  {[ "access_token" := "access-1" ]}.

Definition jar_garbled : gmap string string :=
  {[ "access_token" := "not.a.token"; "refresh_token" := "refresh-1" ]}.

Definition base : string := "https://lms.example/api/v1/".

Definition tab (c : gmap string string) (t : Z) : World :=
  mkWorld c t one_use_backend [] [].

Definition tab_offline (c : gmap string string) (t : Z) : World :=
  mkWorld c t offline_backend [] [].

Definition course_list : Request :=
  mkRequest "/course/course-list/" "get" ∅.

Definition instance_of (c : gmap string string) : AxiosInstance :=
  match client decode base (tab c 0) with
  | (Ok inst, _) => inst
  | (Throw _, _) => axios_create base ∅
  end.

End Sample.

(** * The pages that use the pipeline

    [views/partials/BaseHeader.jsx] and [views/base/Index.jsx]: the search
    box and the avatar of the navigation bar, the greeting of the home page,
    and the two loaders of the home page, which send their requests through
    [useAxios]. *)

(** ** JavaScript strings, by code unit

    The functions below look inside strings (white space, the first
    character of a word), so a string is the list of its UTF-16 code units.
    A string literal of the source is read through [Str.of_string]. *)

Module Str.

Definition of_string (s : string) : list N :=
  Ascii.N_of_ascii <$> String.list_ascii_of_string s.

(** Truthiness of a string: only the empty string is falsy. *)
Definition truthy (s : list N) : bool :=
  match s with
  | [] => false
  | _ :: _ => true
  end.

(** Truthiness of a [string | undefined]. *)
Definition truthy_opt (v : option (list N)) : bool :=
  match v with
  | Some s => truthy s
  | None => false
  end.

(** The code units that [String.prototype.trim] strips: WhiteSpace and
    LineTerminator of ECMAScript. *)
Definition is_whitespace (c : N) : bool :=
  ((9 <=? c) && (c <=? 13) || (c =? 32) || (c =? 160) || (c =? 5760)
   || (8192 <=? c) && (c <=? 8202) || (c =? 8232) || (c =? 8233)
   || (c =? 8239) || (c =? 8287) || (c =? 12288) || (c =? 65279))%N.

Fixpoint trimStart (s : list N) : list N :=
  match s with
  | [] => []
  | c :: s' => if is_whitespace c then trimStart s' else s
  end.

Definition trimEnd (s : list N) : list N :=
  reverse (trimStart (reverse s)).

Definition trim (s : list N) : list N :=
  trimEnd (trimStart s).

(** [s.split(sep)] for a separator of one code unit: the pieces between
    the separators, empty pieces included; one empty piece for the empty
    string. *)
Fixpoint split (sep : N) (s : list N) : list (list N) :=
  match s with
  | [] => [[]]
  | c :: s' =>
      if (c =? sep)%N then [] :: split sep s'
      else
        match split sep s' with
        | piece :: pieces => (c :: piece) :: pieces
        | [] => [[c]]
        end
  end.

(** [s[0]]: the first code unit as a string, [undefined] for the empty
    string. *)
Definition at0 (s : list N) : option (list N) :=
  match s with
  | c :: _ => Some [c]
  | [] => None
  end.

(** [items.join('')]: [undefined] items count as empty strings. *)
Definition join_empty (items : list (option (list N))) : list N :=
  concat (from_option id [] <$> items).

End Str.

(** ** [BaseHeader] *)

Module BaseHeader.

(** What the submit handler does to its surroundings, in order. *)
Inductive Effect :=
| PreventDefault
| Navigate (to : list N).

(** [searchQuery] is the state of the search box. *)
Definition handleSearchSubmit (searchQuery : list N) : list Effect :=
  PreventDefault ::
  (if Str.truthy (Str.trim searchQuery)
   then [Navigate (Str.of_string "/search/?search=" ++ searchQuery)%list]
   else []).

(** The [user] that the components read from the auth store, as far as they
    look at it: two optional strings.  [None] for the whole is [null] or
    [undefined]. *)
Record UserView := mkUserView {
  view_full_name : option (list N);
  view_username : option (list N)
}.

(** [user?.full_name] and [user?.username]. *)
Definition full_name_of (user : option UserView) : option (list N) :=
  match user with
  | Some u => view_full_name u
  | None => None
  end.

Definition username_of (user : option UserView) : option (list N) :=
  match user with
  | Some u => view_username u
  | None => None
  end.

(** [s?.[0]]. *)
Definition first_of (s : option (list N)) : option (list N) :=
  match s with
  | Some s => Str.at0 s
  | None => None
  end.

Section Initials.

(** [String.prototype.toUpperCase]. *)
Variable toUpperCase : list N -> list N.

Definition getUserInitials (user : option UserView) : list N :=
  if Str.truthy_opt (full_name_of user) then
    let names := Str.split 32 (default [] (full_name_of user)) in
    take 2 (toUpperCase (Str.join_empty (Str.at0 <$> names)))
  else
    let upper := toUpperCase <$> first_of (username_of user) in
    if Str.truthy_opt upper then default [] upper else Str.of_string "U".

End Initials.

End BaseHeader.

(** ** [Index] *)

(** Values that arrive in a response body.  Numbers are kept abstract: the
    page only asks whether one is truthy and how it prints. *)
#[warnings="-register-all"]
Inductive JsVal (num : Type) :=
| JUndefined
| JNull
| JBool (b : bool)
| JNumber (n : num)
| JString (s : string)
| JArray (items : list (JsVal num))
| JObject (fields : gmap string (JsVal num)).

Arguments JUndefined {num}.
Arguments JNull {num}.
Arguments JBool {num} b.
Arguments JNumber {num} n.
Arguments JString {num} s.
Arguments JArray {num} items.
Arguments JObject {num} fields.

Record IndexState (num : Type) := mkIndexState {
  courses : list (JsVal num);
  enrolledCourses : list (JsVal num);
  isLoading : bool
}.

Arguments mkIndexState {num} _ _ _.
Arguments courses {num} _.
Arguments enrolledCourses {num} _.
Arguments isLoading {num} _.

Module Index.

Import BaseHeader.

(** [user?.full_name?.split(' ')[0] || user?.username] of the welcome
    banner; [None] is [undefined], which renders as nothing. *)
Definition welcome_name (user : option UserView) : option (list N) :=
  let first :=
    match full_name_of user with
    | Some s => head (Str.split 32 s)
    | None => None
    end in
  if Str.truthy_opt first then first else username_of user.

Section Values.

Variable num : Type.

(** Truthiness of a number ([0], [-0] and [NaN] are falsy) and its
    printing inside a template literal. *)
Variable num_truthy : num -> bool.
Variable num_to_string : num -> string.

Definition truthy (v : JsVal num) : bool :=
  match v with
  | JUndefined | JNull => false
  | JBool b => b
  | JNumber n => num_truthy n
  | JString s => negb (String.eqb s "")
  | JArray _ | JObject _ => true
  end.

(** [a || b]. *)
Definition or_else (a b : JsVal num) : JsVal num :=
  if truthy a then a else b.

(** [data?.results]: only an object can have the property. *)
Definition results_of (data : JsVal num) : JsVal num :=
  match data with
  | JObject fields => default JUndefined (fields !! "results")
  | _ => JUndefined
  end.

(** [res.data?.results || res.data || []]. *)
Definition courseData (data : JsVal num) : JsVal num :=
  or_else (or_else (results_of data) data) (JArray []).

(** [Array.isArray(x) ? x : []]. *)
Definition array_or_empty (v : JsVal num) : list (JsVal num) :=
  match v with
  | JArray items => items
  | _ => []
  end.

Definition setCourses (l : list (JsVal num)) (st : IndexState num)
  : IndexState num :=
  mkIndexState l (enrolledCourses st) (isLoading st).

Definition setEnrolledCourses (l : list (JsVal num)) (st : IndexState num)
  : IndexState num :=
  mkIndexState (courses st) l (isLoading st).

Definition setIsLoading (b : bool) (st : IndexState num) : IndexState num :=
  mkIndexState (courses st) (enrolledCourses st) b.

Section Loaders.

Variable isAccessTokenExpired : string -> M bool.
Variable getRefreshedToken : string -> M TokenResponse.
Variable setAuthUser : string -> string -> M unit.
Variable API_BASE_URL : string.

(** The transport behind axios: it takes the request that left the
    interceptors and yields the body of the response, or throws (network
    failure, status outside 2xx). *)
Variable adapter : Request -> M (JsVal num).

(** How the console prints an error object. *)
Variable inspect : Error -> string.

(** [await useAxios().get(u)], then [res.data]. *)
Definition get_data (u : string) : M (JsVal num) :=
  inst <- useAxios isAccessTokenExpired getRefreshedToken setAuthUser
                   API_BASE_URL ;;
  req <- axios_get inst u ;;
  adapter req.

(** [setCourses] is the last statement of the [try] block and the handler
    cannot throw, so the page state is passed along as a value and the
    [finally] block is what follows. *)
Definition fetchCourses (st : IndexState num) : M (IndexState num) :=
  let st := setIsLoading true st in
  st <- try_catch
          (data <- get_data "/course/course-list/" ;;
           ret (setCourses (array_or_empty (courseData data)) st))
          (fun error =>
             console_log (inspect error) ;;
             ret (setCourses [] st)) ;;
  ret (setIsLoading false st).

(** [userId] is [UserData()?.user_id]. *)
Definition fetchEnrolledCourses (userId : option num) (st : IndexState num)
  : M (IndexState num) :=
  if truthy (from_option JNumber JUndefined userId) then
    try_catch
      (data <- get_data ("/student/course-list/"
                         +:+ from_option num_to_string "undefined" userId
                         +:+ "/") ;;
       ret (setEnrolledCourses (array_or_empty (courseData data)) st))
      (fun error =>
         console_log (inspect error) ;;
         ret (setEnrolledCourses [] st))
  else ret st.

End Loaders.

End Values.

End Index.

(** ** More of the sample session *)

Module Demo.

Import BaseHeader.

(** Upper case for the letters a to z; enough for names in ASCII. *)
Definition ascii_upper (s : list N) : list N :=
  (fun c => if (97 <=? c) && (c <=? 122) then c - 32 else c)%N <$> s.

Definition ada : option UserView :=
  Some (mkUserView (Some (Str.of_string "ada lovelace"))
                   (Some (Str.of_string "countess"))).

Definition blank_name : option UserView :=
  Some (mkUserView (Some (Str.of_string "  "))
                   (Some (Str.of_string "countess"))).

(** An expiry test that throws, as the decoder does on a string that is not
    a token when nothing catches it. *)
Definition throwing_expiry_test (tok : string) : M bool :=
  throw (TypeError "Invalid token specified").

(** A persisting step that stores the access token and then throws. *)
Definition throwing_setAuthUser (access_token refresh_token : string)
  : M unit :=
  Cookies.set "access_token" access_token ;;
  throw (TypeError "Invalid token specified").

Definition inspect (e : Error) : string :=
  match e with
  | AxiosError _ => "AxiosError"
  | TypeError msg => msg
  end.

Definition paginated : JsVal Z :=
  JObject {[ "count" := JNumber 2%Z;
             "results" := JArray [JString "python"; JString "react"] ]}.

(** A backend that answers the course list to a request carrying the
    renewed token and rejects every other request. *)
Definition course_backend (req : Request) : M (JsVal Z) :=
  if bool_decide (headers req !! "Authorization" = Some "Bearer access-2")
  then ret paginated
  else throw (AxiosError (Some 401%Z)).


Definition loading : IndexState Z :=
  mkIndexState [JString "stale"] [] true.

Definition nonzero (n : Z) : bool := negb (n =? 0)%Z.

(** The cart request as axios hands it to the interceptor, with the
    headers the library and the client added, and as the interceptor
    returns it after a renewal. *)
Definition cart_post_prepared : Request :=
  mkRequest "course/cart/" "post"
            {[ "Accept" := "application/json, text/plain, */*";
               "Authorization" := "Bearer access-1";
               "Content-Type" := "multipart/form-data" ]}.

Definition cart_post_sent : Request :=
  mkRequest "course/cart/" "post"
            {[ "Accept" := "application/json, text/plain, */*";
               "Authorization" := "Bearer access-2";
               "Content-Type" := "multipart/form-data" ]}.

(** The client of a build in which the expiry test throws. *)
Definition fragile_instance : AxiosInstance :=
  match
    useAxios throwing_expiry_test Auth.getRefreshedToken Auth.setAuthUser
             Sample.base (Sample.tab Sample.jar 0)
  with
  | (Ok inst, _) => inst
  | (Throw _, _) => axios_create Sample.base ∅
  end.

(** The client of a build in which persisting the new pair throws. *)
Definition half_persisting_instance : AxiosInstance :=
  match
    useAxios (Auth.isAccessTokenExpired Sample.decode) Auth.getRefreshedToken
             throwing_setAuthUser Sample.base (Sample.tab Sample.jar 0)
  with
  | (Ok inst, _) => inst
  | (Throw _, _) => axios_create Sample.base ∅
  end.

End Demo.

(** * Properties of the pipeline *)

(** ** The monad and the JavaScript tests *)

Lemma bind_ret_r {A} (c : M A) (w : World) : (x <- c ;; ret x) w = c w.
Proof.
  unfold bind, ret. destruct (c w) as [[a | e] w']; reflexivity.
Qed.

Lemma truthy_stored (name : string) (w : World) (tok : string) :
  stored name w tok →
  Js.truthy (cookies w !! name) = true ∧
  Js.to_string (cookies w !! name) = tok.
Proof.
  intros [Hget Hne]. rewrite Hget. simpl. split; [| reflexivity].
  destruct (String.eqb_spec tok ""); [contradiction | reflexivity].
Qed.

Lemma truthy_some (s : string) : s ≠ "" → Js.truthy (Some s) = true.
Proof.
  intros Hne. simpl. destruct (String.eqb_spec s ""); [contradiction | easy].
Qed.

Lemma failed_cases (reply : Reply) :
  failed reply → reply = NetworkError ∨ ∃ code, reply = ErrorStatus code.
Proof.
  destruct reply as [| code | data]; simpl; intros H.
  - now left.
  - right. now exists code.
  - contradiction.
Qed.

(** ** The expiry decision *)

Section Expiry.

Variable jwt_decode : string -> option DecodedToken.

Lemma expired_at_valid (tok : string) (t : Z) :
  Valid jwt_decode tok t → Auth.expired_at jwt_decode tok t = false.
Proof.
  intros (claims & Hdec & Hlt). unfold Auth.expired_at. rewrite Hdec.
  apply negb_false_iff, Z.ltb_lt, Hlt.
Qed.

Lemma expired_at_expired (tok : string) (t : Z) :
  Expired jwt_decode tok t → Auth.expired_at jwt_decode tok t = true.
Proof.
  intros (claims & Hdec & Hle). unfold Auth.expired_at. rewrite Hdec.
  apply negb_true_iff, Z.ltb_ge, Hle.
Qed.

Lemma expired_at_unparseable (tok : string) (t : Z) :
  Unparseable jwt_decode tok → Auth.expired_at jwt_decode tok t = true.
Proof.
  unfold Unparseable, Auth.expired_at. now intros ->.
Qed.

Lemma expired_at_not_valid (tok : string) (t : Z) :
  Auth.expired_at jwt_decode tok t = true → ¬ Valid jwt_decode tok t.
Proof.
  intros He Hv. apply expired_at_valid in Hv. congruence.
Qed.

Lemma expired_at_false_valid (tok : string) (t : Z) :
  Auth.expired_at jwt_decode tok t = false → Valid jwt_decode tok t.
Proof.
  unfold Auth.expired_at, Valid.
  destruct (jwt_decode tok) as [claims |]; [| discriminate].
  intros H. exists claims. split; [reflexivity |].
  apply Z.ltb_lt. now apply negb_false_iff.
Qed.

(** Once expired, always expired: the decision is monotone in time. *)
Lemma expired_at_later (tok : string) (t t' : Z) :
  (t <= t')%Z →
  Auth.expired_at jwt_decode tok t = true →
  Auth.expired_at jwt_decode tok t' = true.
Proof.
  unfold Auth.expired_at. destruct (jwt_decode tok) as [claims |]; [| easy].
  rewrite !negb_true_iff, !Z.ltb_ge. intros. now transitivity t.
Qed.

Lemma isAccessTokenExpired_run (tok : string) (w : World) :
  Auth.isAccessTokenExpired jwt_decode tok w
  = (Ok (Auth.expired_at jwt_decode tok (clock w)), w).
Proof. reflexivity. Qed.

End Expiry.

(** ** The four ways through the interceptor *)

Section Interceptor.

Variable jwt_decode : string -> option DecodedToken.

Lemma interceptor_guard (a r : option string) (req : Request) (w : World) :
  Js.truthy a = false ∨ Js.truthy r = false →
  hook_interceptor jwt_decode a r req w = (Ok req, w).
Proof.
  intros H. unfold hook_interceptor, interceptor.
  destruct H as [-> | ->]; simpl; [reflexivity |].
  now rewrite orb_true_r.
Qed.

Lemma interceptor_fresh (a r : option string) (req : Request) (w : World) :
  Auth.expired_at jwt_decode (Js.to_string a) (clock w) = false →
  hook_interceptor jwt_decode a r req w = (Ok req, w).
Proof.
  intros Hv. unfold hook_interceptor, interceptor.
  destruct (negb (Js.truthy a) || negb (Js.truthy r)); [reflexivity |].
  unfold bind. rewrite isAccessTokenExpired_run, Hv. reflexivity.
Qed.

Lemma interceptor_renewed (a r : option string) (req : Request) (w : World)
    (pair : TokenResponse) :
  Js.truthy a = true → Js.truthy r = true →
  Auth.expired_at jwt_decode (Js.to_string a) (clock w) = true →
  refresh_endpoint w (renewals w) (Js.to_string r) = NewPair pair →
  hook_interceptor jwt_decode a r req w
  = (Ok (set_header "Authorization" ("Bearer " +:+ access pair) req),
     with_cookies
       (<["refresh_token" := refresh pair]>
          (<["access_token" := access pair]> (cookies w)))
       (with_renewals (Js.to_string r :: renewals w) w)).
Proof.
  intros Ha Hr He Hreply. unfold hook_interceptor, interceptor. rewrite Ha, Hr. simpl.
  unfold bind at 1. rewrite isAccessTokenExpired_run, He. simpl.
  unfold try_catch, Auth.getRefreshedToken, Auth.post_token_refresh, bind.
  rewrite Hreply. reflexivity.
Qed.

Lemma interceptor_failed (a r : option string) (req : Request) (w : World) :
  Js.truthy a = true → Js.truthy r = true →
  Auth.expired_at jwt_decode (Js.to_string a) (clock w) = true →
  failed (refresh_endpoint w (renewals w) (Js.to_string r)) →
  hook_interceptor jwt_decode a r req w
  = (Ok req,
     with_console
       ("Token refresh failed, user needs to re-authenticate" :: console w)
       (with_renewals (Js.to_string r :: renewals w) w)).
Proof.
  intros Ha Hr He Hreply. unfold hook_interceptor, interceptor. rewrite Ha, Hr. simpl.
  unfold bind at 1. rewrite isAccessTokenExpired_run, He. simpl.
  unfold try_catch, Auth.getRefreshedToken, Auth.post_token_refresh, bind.
  destruct (failed_cases _ Hreply) as [-> | [code ->]]; reflexivity.
Qed.

(** The interceptor in closed form. *)
Lemma interceptor_run (a r : option string) (req : Request) (w : World) :
  hook_interceptor jwt_decode a r req w
  = if negb (Js.truthy a) || negb (Js.truthy r) then (Ok req, w)
    else if negb (Auth.expired_at jwt_decode (Js.to_string a) (clock w))
    then (Ok req, w)
    else
      match refresh_endpoint w (renewals w) (Js.to_string r) with
      | NewPair data =>
          (Ok (set_header "Authorization" ("Bearer " +:+ access data) req),
           with_cookies
             (<["refresh_token" := refresh data]>
                (<["access_token" := access data]> (cookies w)))
             (with_renewals (Js.to_string r :: renewals w) w))
      | _ =>
          (Ok req,
           with_console
             ("Token refresh failed, user needs to re-authenticate"
                :: console w)
             (with_renewals (Js.to_string r :: renewals w) w))
      end.
Proof.
  unfold hook_interceptor, interceptor.
  destruct (negb (Js.truthy a) || negb (Js.truthy r)); [reflexivity |].
  unfold bind at 1. rewrite isAccessTokenExpired_run.
  destruct (Auth.expired_at jwt_decode (Js.to_string a) (clock w)); simpl;
    [| reflexivity].
  unfold try_catch, Auth.getRefreshedToken, Auth.post_token_refresh, bind.
  destruct (refresh_endpoint w (renewals w) (Js.to_string r)); reflexivity.
Qed.

(** A captured token that is stale makes the interceptor call the refresh
    endpoint once, with the captured refresh token, and return a request
    whatever the answer is. *)
Lemma interceptor_renews (a r : string) (req : Request) (w : World) :
  a ≠ "" → r ≠ "" →
  Auth.expired_at jwt_decode a (clock w) = true →
  ∃ out w',
    hook_interceptor jwt_decode (Some a) (Some r) req w = (Ok out, w') ∧
    renewals w' = r :: renewals w.
Proof.
  intros Hna Hnr He. rewrite interceptor_run.
  rewrite (truthy_some a Hna), (truthy_some r Hnr). simpl. rewrite He. simpl.
  destruct (refresh_endpoint w (renewals w) r); do 2 eexists; now split.
Qed.

End Interceptor.

(** ** From the hook to the outgoing request *)

Section Client.

Variable jwt_decode : string -> option DecodedToken.
Variable API_BASE_URL : string.

(** Running the hook reads the two cookies and changes nothing. *)
Lemma client_inv (w0 w0' : World) (inst : AxiosInstance) :
  client jwt_decode API_BASE_URL w0 = (Ok inst, w0') →
  w0' = w0 ∧
  default_headers inst
  = (if Js.truthy (cookies w0 !! "access_token")
     then {[ "Authorization" :=
               "Bearer " +:+ Js.to_string (cookies w0 !! "access_token") ]}
     else ∅) ∧
  request_interceptors inst
  = [hook_interceptor jwt_decode (cookies w0 !! "access_token")
                      (cookies w0 !! "refresh_token")].
Proof.
  unfold client, useAxios, bind, ret, Cookies.get. intros H.
  injection H as <- <-. repeat split; reflexivity.
Qed.

Lemma client_total (w0 : World) :
  ∃ inst, client jwt_decode API_BASE_URL w0 = (Ok inst, w0).
Proof. eexists. reflexivity. Qed.

(** A request sent through the client is the merged configuration passed
    through the one interceptor. *)
Lemma request_of_client (w0 w0' w : World) (inst : AxiosInstance)
    (config : Request) :
  client jwt_decode API_BASE_URL w0 = (Ok inst, w0') →
  axios_request inst config w
  = hook_interceptor jwt_decode (cookies w0 !! "access_token")
      (cookies w0 !! "refresh_token") (merge_config inst config) w.
Proof.
  intros H. apply client_inv in H as (_ & _ & Hf).
  unfold axios_request. rewrite Hf. simpl. apply bind_ret_r.
Qed.

(** With an access token stored, the default header reaches every request
    that does not bring its own. *)
Lemma merged_carries (w0 w0' : World) (inst : AxiosInstance)
    (config : Request) (a : string) :
  client jwt_decode API_BASE_URL w0 = (Ok inst, w0') →
  stored "access_token" w0 a →
  plain config →
  carries (merge_config inst config) a.
Proof.
  intros H Ha Hp. apply client_inv in H as (_ & Hd & _).
  apply truthy_stored in Ha as [Ht Hs]. rewrite Ht, Hs in Hd.
  unfold carries, merge_config. simpl.
  rewrite lookup_union_r by exact Hp.
  rewrite Hd. apply lookup_singleton_eq.
Qed.

(** Without one, the configuration goes out as the caller wrote it. *)
Lemma merged_anonymous (w0 w0' : World) (inst : AxiosInstance)
    (config : Request) :
  client jwt_decode API_BASE_URL w0 = (Ok inst, w0') →
  missing "access_token" w0 →
  merge_config inst config = config.
Proof.
  intros H Hm. apply client_inv in H as (_ & Hd & _).
  unfold missing in Hm. rewrite Hm in Hd.
  unfold merge_config. rewrite Hd, (right_id_L ∅ (∪)).
  now destruct config.
Qed.

(** C3: a request sent while the stored access token is present and not yet
    expired goes out with the stored token as its bearer credential, exactly
    as axios prepared it, and the tab is left as it was: no renewal call is
    made. *)
Theorem valid_token_sent_unchanged (w0 w0' w : World) (inst : AxiosInstance)
    (config : Request) (a : string) :
  client jwt_decode API_BASE_URL w0 = (Ok inst, w0') →
  stored "access_token" w0 a →
  Valid jwt_decode a (clock w) →
  plain config →
  ∃ out,
    axios_request inst config w = (Ok out, w) ∧
    out = merge_config inst config ∧
    carries out a.
Proof.
  intros Hc Ha Hv Hp. exists (merge_config inst config).
  rewrite (request_of_client _ _ _ _ _ Hc).
  split; [| split; [reflexivity | now apply (merged_carries w0 w0')]].
  apply interceptor_fresh.
  destruct (truthy_stored _ _ _ Ha) as [_ ->].
  now apply expired_at_valid.
Qed.

(** C4: through a client built with no stored credentials the pipeline is a
    passthrough: the request goes out as the caller wrote it, without an
    [Authorization] header, and the tab is left as it was: no renewal call
    is made. *)
Theorem anonymous_passthrough (w0 w0' w : World) (inst : AxiosInstance)
    (config : Request) :
  client jwt_decode API_BASE_URL w0 = (Ok inst, w0') →
  missing "access_token" w0 →
  missing "refresh_token" w0 →
  plain config →
  ∃ out,
    axios_request inst config w = (Ok out, w) ∧
    out = config ∧
    headers out !! "Authorization" = None.
Proof.
  intros Hc Ha Hr Hp. exists config.
  rewrite (request_of_client _ _ _ _ _ Hc), (merged_anonymous _ _ _ _ Hc Ha).
  split; [| split; [reflexivity | exact Hp]].
  apply interceptor_guard. now left.
Qed.

(** C9: with an access token stored and no refresh token, the request goes
    out exactly as axios prepared it, carrying the stored access token,
    whether that token is expired or not, and the tab is left as it was: no
    renewal call is made. *)
Theorem no_refresh_token_passthrough (w0 w0' w : World)
    (inst : AxiosInstance) (config : Request) (a : string) :
  client jwt_decode API_BASE_URL w0 = (Ok inst, w0') →
  stored "access_token" w0 a →
  missing "refresh_token" w0 →
  plain config →
  ∃ out,
    axios_request inst config w = (Ok out, w) ∧
    out = merge_config inst config ∧
    carries out a.
Proof.
  intros Hc Ha Hr Hp. exists (merge_config inst config).
  rewrite (request_of_client _ _ _ _ _ Hc).
  split; [| split; [reflexivity | now apply (merged_carries w0 w0')]].
  apply interceptor_guard. now right.
Qed.

End Client.

(** ** Renewal *)

Section Renewal.

Variable jwt_decode : string -> option DecodedToken.
Variable API_BASE_URL : string.

(** C1: a request sent while the stored access token is expired and the
    backend accepts the stored refresh token makes exactly one renewal call,
    with that refresh token; the cookie jar then holds the pair the backend
    returned, and the outgoing request carries the new access token. *)
Theorem expired_token_renewed (w0 w0' w : World) (inst : AxiosInstance)
    (config : Request) (a r : string) (pair : TokenResponse) :
  client jwt_decode API_BASE_URL w0 = (Ok inst, w0') →
  stored "access_token" w0 a →
  stored "refresh_token" w0 r →
  Expired jwt_decode a (clock w) →
  refresh_endpoint w (renewals w) r = NewPair pair →
  ∃ out w',
    axios_request inst config w = (Ok out, w') ∧
    renewals w' = r :: renewals w ∧
    cookies w' !! "access_token" = Some (access pair) ∧
    cookies w' !! "refresh_token" = Some (refresh pair) ∧
    carries out (access pair).
Proof.
  intros Hc Ha Hr He Hreply.
  destruct (truthy_stored _ _ _ Ha) as [Hta Hsa].
  destruct (truthy_stored _ _ _ Hr) as [Htr Hsr].
  rewrite (request_of_client _ _ _ _ _ _ _ Hc).
  rewrite (interceptor_renewed jwt_decode _ _ (merge_config inst config) w pair Hta Htr).
  - rewrite Hsr. do 2 eexists. split; [reflexivity |]. simpl.
    split; [reflexivity |]. split; [| split].
    + rewrite lookup_insert_ne by discriminate. apply lookup_insert_eq.
    + apply lookup_insert_eq.
    + unfold carries. simpl. apply lookup_insert_eq.
  - rewrite Hsa. now apply expired_at_expired.
  - now rewrite Hsr.
Qed.

(** C2: a request sent while the stored access token is expired and the
    renewal call fails, by a network error or an error status, still goes
    out: it is the request as axios prepared it, carrying the stale access
    token, and the cookie jar is left as it was. *)
Theorem failed_renewal_sends_stale (w0 w0' w : World) (inst : AxiosInstance)
    (config : Request) (a r : string) :
  client jwt_decode API_BASE_URL w0 = (Ok inst, w0') →
  stored "access_token" w0 a →
  stored "refresh_token" w0 r →
  Expired jwt_decode a (clock w) →
  failed (refresh_endpoint w (renewals w) r) →
  plain config →
  ∃ out w',
    axios_request inst config w = (Ok out, w') ∧
    renewals w' = r :: renewals w ∧
    cookies w' = cookies w ∧
    out = merge_config inst config ∧
    carries out a.
Proof.
  intros Hc Ha Hr He Hreply Hp.
  destruct (truthy_stored _ _ _ Ha) as [Hta Hsa].
  destruct (truthy_stored _ _ _ Hr) as [Htr Hsr].
  rewrite (request_of_client _ _ _ _ _ _ _ Hc).
  rewrite (interceptor_failed jwt_decode _ _ (merge_config inst config) w Hta Htr).
  - rewrite Hsr. do 2 eexists. split; [reflexivity |]. simpl.
    repeat split. now apply (merged_carries jwt_decode API_BASE_URL w0 w0').
  - rewrite Hsa. now apply expired_at_expired.
  - now rewrite Hsr.
Qed.

(** C7: an access token that cannot be decoded is handled as an expired
    one.  The expiry test answers "expired" and raises nothing; the
    interceptor does on every request exactly what it does when the stored
    access token is a decodable, expired one; and so, with a refresh token
    stored, the request makes the renewal call and goes out. *)
Theorem unparseable_token_handled_as_expired (w0 w0' w : World)
    (inst : AxiosInstance) (config : Request) (a : string) :
  client jwt_decode API_BASE_URL w0 = (Ok inst, w0') →
  stored "access_token" w0 a →
  Unparseable jwt_decode a →
  Auth.isAccessTokenExpired jwt_decode a w = (Ok true, w) ∧
  (∀ (a' : string) (req : Request),
     a' ≠ "" → Expired jwt_decode a' (clock w) →
     hook_interceptor jwt_decode (Some a)
                      (cookies w0 !! "refresh_token") req w
     = hook_interceptor jwt_decode (Some a')
                        (cookies w0 !! "refresh_token") req w) ∧
  (∀ r : string,
     stored "refresh_token" w0 r →
     ∃ out w',
       axios_request inst config w = (Ok out, w') ∧
       renewals w' = r :: renewals w).
Proof.
  intros Hc [Hga Hna] Hu.
  pose proof (expired_at_unparseable jwt_decode a (clock w) Hu) as He.
  split; [| split].
  - rewrite isAccessTokenExpired_run, He. reflexivity.
  - intros a' req Hna' He'. apply expired_at_expired in He'.
    rewrite !interceptor_run.
    rewrite (truthy_some a Hna), (truthy_some a' Hna'). simpl.
    rewrite He, He'. reflexivity.
  - intros r [Hgr Hnr].
    rewrite (request_of_client _ _ _ _ _ _ _ Hc), Hga, Hgr.
    now apply interceptor_renews.
Qed.




End Renewal.

(** ** Failure is absorbed *)

Section Absorption.

Variable jwt_decode : string -> option DecodedToken.
Variable API_BASE_URL : string.

(** Whatever the renewal helper and the persisting helper do, including
    throwing after they changed the tab. *)
Variable getRefreshedToken : string -> M TokenResponse.
Variable setAuthUser : string -> string -> M unit.

(** C5: the interception step never throws.  For every request, every pair
    of captured credentials, every state of the tab and every behaviour of
    the renewal call and of the persisting step, the interceptor returns a
    request for the same method and address; hence building the client and
    sending a request through it always hands a request to the transport. *)
Theorem interception_never_throws :
  (∀ (a r : option string) (req : Request) (w : World),
     ∃ out w',
       interceptor (Auth.isAccessTokenExpired jwt_decode)
                   getRefreshedToken setAuthUser a r req w = (Ok out, w') ∧
       url out = url req ∧ method out = method req) ∧
  (∀ w0 : World,
     ∃ inst,
       useAxios (Auth.isAccessTokenExpired jwt_decode)
                getRefreshedToken setAuthUser API_BASE_URL w0
       = (Ok inst, w0) ∧
       ∀ (config : Request) (w : World),
         ∃ out w', axios_request inst config w = (Ok out, w')).
Proof.
  assert (Hstep : ∀ a r req w, ∃ out w',
            interceptor (Auth.isAccessTokenExpired jwt_decode)
                        getRefreshedToken setAuthUser a r req w = (Ok out, w')
            ∧ url out = url req ∧ method out = method req).
  { intros a r req w. unfold interceptor.
    destruct (negb (Js.truthy a) || negb (Js.truthy r)).
    { now exists req, w. }
    unfold bind at 1. rewrite isAccessTokenExpired_run.
    destruct (Auth.expired_at jwt_decode (Js.to_string a) (clock w)); simpl.
    2: { now exists req, w. }
    unfold try_catch, bind.
    destruct (getRefreshedToken (Js.to_string r) w) as [[resp | e] w1].
    - destruct (setAuthUser (access resp) (refresh resp) w1) as [[[] | e] w2].
      + do 2 eexists. split; [reflexivity | split; reflexivity].
      + do 2 eexists. split; [reflexivity | split; reflexivity].
    - do 2 eexists. split; [reflexivity | split; reflexivity]. }
  split; [exact Hstep |].
  intros w0. eexists. split; [reflexivity |].
  intros config w. unfold axios_request. simpl.
  rewrite bind_ret_r.
  destruct (Hstep (cookies w0 !! "access_token") (cookies w0 !! "refresh_token")
              (merge_config
                 (interceptors_request_use
                    (axios_create API_BASE_URL
                       (if Js.truthy (cookies w0 !! "access_token")
                        then {[ "Authorization" :=
                                  "Bearer " +:+
                                  Js.to_string (cookies w0 !! "access_token") ]}
                        else ∅))
                    (interceptor (Auth.isAccessTokenExpired jwt_decode)
                       getRefreshedToken setAuthUser
                       (cookies w0 !! "access_token")
                       (cookies w0 !! "refresh_token"))) config) w)
    as (out & w' & Hrun & _).
  exists out, w'. exact Hrun.
Qed.

End Absorption.

(** ** What an outgoing request carries *)

Section Invariant.

Variable jwt_decode : string -> option DecodedToken.
Variable API_BASE_URL : string.

(** C6, as amended: the access token carried by an outgoing authenticated
    request is currently valid, or is the access token of the pair that the
    one renewal call of this interception just returned, or else it is the
    stored token, stale, sent as it is with the cookie jar untouched because
    no refresh token is stored or because the renewal call failed. *)
Theorem outgoing_token_valid_renewed_or_stale (w0 w0' w : World)
    (inst : AxiosInstance) (config : Request) (a : string) :
  client jwt_decode API_BASE_URL w0 = (Ok inst, w0') →
  stored "access_token" w0 a →
  plain config →
  ∃ out w' tok,
    axios_request inst config w = (Ok out, w') ∧
    carries out tok ∧
    (Valid jwt_decode tok (clock w) ∨
     renewed_in w w' tok ∨
     (tok = a ∧ ¬ Valid jwt_decode a (clock w) ∧ cookies w' = cookies w ∧
      (missing "refresh_token" w0 ∨
       ∃ r, stored "refresh_token" w0 r ∧
            renewals w' = r :: renewals w ∧
            failed (refresh_endpoint w (renewals w) r)))).
Proof.
  intros Hc Ha Hp.
  pose proof (merged_carries _ _ _ _ _ _ _ Hc Ha Hp) as Hcar.
  destruct (truthy_stored _ _ _ Ha) as [Hta Hsa].
  rewrite (request_of_client _ _ _ _ _ _ _ Hc).
  destruct (Auth.expired_at jwt_decode a (clock w)) eqn:He.
  2: { exists (merge_config inst config), w, a. split; [| split].
       - apply interceptor_fresh. now rewrite Hsa.
       - exact Hcar.
       - left. now apply expired_at_false_valid. }
  pose proof (expired_at_not_valid _ _ _ He) as Hnv.
  destruct (Js.truthy (cookies w0 !! "refresh_token")) eqn:Htr.
  2: { exists (merge_config inst config), w, a. split; [| split].
       - apply interceptor_guard. now right.
       - exact Hcar.
       - right. right. repeat split; try assumption. now left. }
  assert (Hr : ∃ r, stored "refresh_token" w0 r) .
  { unfold stored. destruct (cookies w0 !! "refresh_token") as [r |];
      [| discriminate].
    exists r. split; [reflexivity |]. simpl in Htr.
    destruct (String.eqb_spec r ""); [discriminate | assumption]. }
  destruct Hr as [r Hr]. destruct (truthy_stored _ _ _ Hr) as [_ Hsr].
  destruct (refresh_endpoint w (renewals w) r) as [| code | pair] eqn:Hreply.
  - eexists _, _, a. split; [| split].
    + apply interceptor_failed; rewrite ?Hsa, ?Hsr, ?Hreply; simpl; trivial.
    + exact Hcar.
    + right. right. rewrite Hsr. simpl. repeat split; try assumption.
      right. exists r. rewrite Hreply.
      split; [exact Hr | split; [reflexivity | exact I]].
  - eexists _, _, a. split; [| split].
    + apply interceptor_failed; rewrite ?Hsa, ?Hsr, ?Hreply; simpl; trivial.
    + exact Hcar.
    + right. right. rewrite Hsr. simpl. repeat split; try assumption.
      right. exists r. rewrite Hreply.
      split; [exact Hr | split; [reflexivity | exact I]].
  - eexists _, _, (access pair). split; [| split].
    + apply (interceptor_renewed _ _ _ _ _ pair);
        rewrite ?Hsa, ?Hsr; trivial.
    + unfold carries. simpl. apply lookup_insert_eq.
    + right. left. exists r, pair. rewrite Hsr. now repeat split.
Qed.

End Invariant.

(** ** Credentials are captured when the client is built *)

Section Capture.

Variable jwt_decode : string -> option DecodedToken.
Variable API_BASE_URL : string.

(** The interceptor never reads the cookie jar: with another jar in place it
    returns the same request and makes the same renewal calls. *)
Lemma interceptor_ignores_jar (a r : option string) (req : Request)
    (w : World) (jar : gmap string string) :
  fst (hook_interceptor jwt_decode a r req (with_cookies jar w))
  = fst (hook_interceptor jwt_decode a r req w) ∧
  renewals (snd (hook_interceptor jwt_decode a r req (with_cookies jar w)))
  = renewals (snd (hook_interceptor jwt_decode a r req w)).
Proof.
  rewrite !interceptor_run. simpl.
  destruct (negb (Js.truthy a) || negb (Js.truthy r)); [now split |].
  destruct (negb (Auth.expired_at jwt_decode (Js.to_string a) (clock w)));
    [now split |].
  destruct (refresh_endpoint w (renewals w) (Js.to_string r)); now split.
Qed.

(** C10: the credential pair is read once, when the client is built.  A
    request sent through that client is treated the same way whatever the
    cookie jar holds when it is sent: same outgoing request, same renewal
    calls.  So once the captured access token has expired, every later
    request through the same client calls the refresh endpoint again with
    the captured refresh token, in every state of the tab, the one left by
    a successful renewal included. *)
Theorem credentials_captured_at_construction (w0 w0' w : World)
    (inst : AxiosInstance) (a r : string) :
  client jwt_decode API_BASE_URL w0 = (Ok inst, w0') →
  stored "access_token" w0 a →
  stored "refresh_token" w0 r →
  Expired jwt_decode a (clock w) →
  (∀ (config : Request) (w1 : World) (jar : gmap string string),
     fst (axios_request inst config (with_cookies jar w1))
     = fst (axios_request inst config w1) ∧
     renewals (snd (axios_request inst config (with_cookies jar w1)))
     = renewals (snd (axios_request inst config w1))) ∧
  (∀ (config : Request) (w2 : World),
     (clock w <= clock w2)%Z →
     ∃ out w2',
       axios_request inst config w2 = (Ok out, w2') ∧
       renewals w2' = r :: renewals w2).
Proof.
  intros Hc [Hga Hna] [Hgr Hnr] He. split.
  - intros config w1 jar.
    rewrite !(request_of_client _ _ _ _ _ _ _ Hc).
    apply interceptor_ignores_jar.
  - intros config w2 Hlater.
    rewrite (request_of_client _ _ _ _ _ _ _ Hc), Hga, Hgr.
    apply interceptor_renews; try assumption.
    apply (expired_at_later _ _ (clock w)); [assumption |].
    now apply expired_at_expired.
Qed.

End Capture.

(** ** The sample session, run

    The token is issued at instant 0 for five minutes.  A request one minute
    later goes out with it; a request ten minutes later renews it first. *)

Section SampleRuns.

Import Sample.

Example one_minute_later :
  axios_get (instance_of jar) "/course/course-list/" (tab jar 60)
  = (Ok (mkRequest "/course/course-list/" "get"
                   {[ "Authorization" := "Bearer access-1" ]}),
     tab jar 60).
Proof. reflexivity. Qed.

Example ten_minutes_later :
  axios_get (instance_of jar) "/course/course-list/" (tab jar 600)
  = (Ok (mkRequest "/course/course-list/" "get"
                   {[ "Authorization" := "Bearer access-2" ]}),
     mkWorld {[ "access_token" := "access-2"; "refresh_token" := "refresh-2" ]}
             600 one_use_backend ["refresh-1"] []).
Proof. reflexivity. Qed.

(** The client built before the renewal is used again a minute after it:
    the jar holds a token that is good until instant 900, yet the client
    presents the spent refresh token and sends the old access token. *)
Example same_client_a_minute_after_renewal :
  axios_get (instance_of jar) "/course/course-list/"
    (mkWorld {[ "access_token" := "access-2"; "refresh_token" := "refresh-2" ]}
             660 one_use_backend ["refresh-1"] [])
  = (Ok (mkRequest "/course/course-list/" "get"
                   {[ "Authorization" := "Bearer access-1" ]}),
     mkWorld {[ "access_token" := "access-2"; "refresh_token" := "refresh-2" ]}
             660 one_use_backend ["refresh-1"; "refresh-1"]
             ["Token refresh failed, user needs to re-authenticate"]).
Proof. reflexivity. Qed.

(** A visitor adds a course to the cart: nothing is attached, nothing is
    renewed. *)
Example visitor_posts_to_cart :
  axios_post (instance_of ∅) "course/cart/" (tab ∅ 60)
  = (Ok (mkRequest "course/cart/" "post" ∅), tab ∅ 60).
Proof. reflexivity. Qed.

Lemma expired_token_renewed_witness :
  ∃ out w',
    axios_request (instance_of jar) course_list (tab jar 600) = (Ok out, w') ∧
    renewals w' = ["refresh-1"] ∧
    cookies w' !! "access_token" = Some "access-2" ∧
    cookies w' !! "refresh_token" = Some "refresh-2" ∧
    carries out "access-2".
Proof.
  apply (expired_token_renewed decode base (tab jar 0) (tab jar 0)
           (tab jar 600) (instance_of jar) course_list
           "access-1" "refresh-1" pair2).
  - reflexivity.
  - split; [reflexivity | discriminate].
  - split; [reflexivity | discriminate].
  - exists (claims_until 300). split; [reflexivity | discriminate].
  - reflexivity.
Defined.

Lemma failed_renewal_sends_stale_witness :
  ∃ out w',
    axios_request (instance_of jar) course_list (tab_offline jar 600)
    = (Ok out, w') ∧
    renewals w' = ["refresh-1"] ∧
    cookies w' = jar ∧
    out = merge_config (instance_of jar) course_list ∧
    carries out "access-1".
Proof.
  apply (failed_renewal_sends_stale decode base (tab jar 0) (tab jar 0)
           (tab_offline jar 600) (instance_of jar) course_list
           "access-1" "refresh-1").
  - reflexivity.
  - split; [reflexivity | discriminate].
  - split; [reflexivity | discriminate].
  - exists (claims_until 300). split; [reflexivity | discriminate].
  - exact I.
  - reflexivity.
Defined.

Lemma valid_token_sent_unchanged_witness :
  ∃ out,
    axios_request (instance_of jar) course_list (tab jar 60)
    = (Ok out, tab jar 60) ∧
    out = merge_config (instance_of jar) course_list ∧
    carries out "access-1".
Proof.
  apply (valid_token_sent_unchanged decode base (tab jar 0) (tab jar 0)
           (tab jar 60) (instance_of jar) course_list "access-1").
  - reflexivity.
  - split; [reflexivity | discriminate].
  - exists (claims_until 300). split; reflexivity.
  - reflexivity.
Defined.

Lemma anonymous_passthrough_witness :
  ∃ out,
    axios_request (instance_of ∅) course_list (tab ∅ 600)
    = (Ok out, tab ∅ 600) ∧
    out = course_list ∧
    headers out !! "Authorization" = None.
Proof.
  apply (anonymous_passthrough decode base (tab ∅ 0) (tab ∅ 0)
           (tab ∅ 600) (instance_of ∅) course_list).
  - reflexivity.
  - reflexivity.
  - reflexivity.
  - reflexivity.
Defined.

Lemma no_refresh_token_passthrough_witness :
  ∃ out,
    axios_request (instance_of jar_without_refresh) course_list
      (tab jar_without_refresh 600)
    = (Ok out, tab jar_without_refresh 600) ∧
    out = merge_config (instance_of jar_without_refresh) course_list ∧
    carries out "access-1".
Proof.
  apply (no_refresh_token_passthrough decode base
           (tab jar_without_refresh 0) (tab jar_without_refresh 0)
           (tab jar_without_refresh 600) (instance_of jar_without_refresh)
           course_list "access-1").
  - reflexivity.
  - split; [reflexivity | discriminate].
  - reflexivity.
  - reflexivity.
Defined.

Lemma unparseable_token_handled_as_expired_witness :
  Auth.isAccessTokenExpired decode "not.a.token" (tab jar_garbled 60)
  = (Ok true, tab jar_garbled 60) ∧
  (∀ (a' : string) (req : Request),
     a' ≠ "" → Expired decode a' 60 →
     hook_interceptor decode (Some "not.a.token")
       (cookies (tab jar_garbled 0) !! "refresh_token") req
       (tab jar_garbled 60)
     = hook_interceptor decode (Some a')
         (cookies (tab jar_garbled 0) !! "refresh_token") req
         (tab jar_garbled 60)) ∧
  (∀ r : string,
     stored "refresh_token" (tab jar_garbled 0) r →
     ∃ out w',
       axios_request (instance_of jar_garbled) course_list
         (tab jar_garbled 60)
       = (Ok out, w') ∧
       renewals w' = [r]).
Proof.
  apply (unparseable_token_handled_as_expired decode base
           (tab jar_garbled 0) (tab jar_garbled 0) (tab jar_garbled 60)
           (instance_of jar_garbled) course_list "not.a.token").
  - reflexivity.
  - split; [reflexivity | discriminate].
  - reflexivity.
Defined.

Lemma outgoing_token_valid_renewed_or_stale_witness :
  ∃ out w' tok,
    axios_request (instance_of jar) course_list (tab_offline jar 600)
    = (Ok out, w') ∧
    carries out tok ∧
    (Valid decode tok 600 ∨
     renewed_in (tab_offline jar 600) w' tok ∨
     (tok = "access-1" ∧ ¬ Valid decode "access-1" 600 ∧ cookies w' = jar ∧
      (missing "refresh_token" (tab jar 0) ∨
       ∃ r, stored "refresh_token" (tab jar 0) r ∧
            renewals w' = [r] ∧
            failed (offline_backend [] r)))).
Proof.
  apply (outgoing_token_valid_renewed_or_stale decode base (tab jar 0)
           (tab jar 0) (tab_offline jar 600) (instance_of jar) course_list
           "access-1").
  - reflexivity.
  - split; [reflexivity | discriminate].
  - reflexivity.
Defined.

Lemma credentials_captured_at_construction_witness :
  (∀ (config : Request) (w1 : World) (c : gmap string string),
     fst (axios_request (instance_of jar) config (with_cookies c w1))
     = fst (axios_request (instance_of jar) config w1) ∧
     renewals (snd (axios_request (instance_of jar) config (with_cookies c w1)))
     = renewals (snd (axios_request (instance_of jar) config w1))) ∧
  (∀ (config : Request) (w2 : World),
     (600 <= clock w2)%Z →
     ∃ out w2',
       axios_request (instance_of jar) config w2 = (Ok out, w2') ∧
       renewals w2' = "refresh-1" :: renewals w2).
Proof.
  apply (credentials_captured_at_construction decode base (tab jar 0)
           (tab jar 0) (tab jar 600) (instance_of jar)
           "access-1" "refresh-1").
  - reflexivity.
  - split; [reflexivity | discriminate].
  - split; [reflexivity | discriminate].
  - exists (claims_until 300). split; [reflexivity | discriminate].
Defined.


(** C6, as stated, fails: ten minutes after issue and with the refresh
    endpoint out of reach, the request leaves the pipeline carrying the
    stored access token, which is neither valid at that instant nor a token
    that a renewal just returned. *)
Lemma stale_token_leaves_pipeline :
  ∃ out w',
    client decode base (tab_offline jar 600)
    = (Ok (instance_of jar), tab_offline jar 600) ∧
    axios_request (instance_of jar) course_list (tab_offline jar 600)
    = (Ok out, w') ∧
    carries out "access-1" ∧
    ¬ (Valid decode "access-1" (clock (tab_offline jar 600)) ∨
       renewed_in (tab_offline jar 600) w' "access-1").
Proof.
  do 2 eexists. split; [reflexivity |]. split; [reflexivity |].
  split; [reflexivity |].
  intros [(claims & Hdec & Hlt) | (r & data & _ & Hreply & _)].
  - injection Hdec as <-. discriminate Hlt.
  - discriminate Hreply.
Qed.

End SampleRuns.

(** * Further properties *)

(** ** The hook over arbitrary helpers

    What [useAxios] and its interceptor do whatever the three functions
    imported from [./auth] do. *)

Section AnyHelpers.

Variable isAccessTokenExpired : string -> M bool.
Variable getRefreshedToken : string -> M TokenResponse.
Variable setAuthUser : string -> string -> M unit.
Variable API_BASE_URL : string.

Lemma useAxios_inv (w0 w0' : World) (inst : AxiosInstance) :
  useAxios isAccessTokenExpired getRefreshedToken setAuthUser API_BASE_URL w0
  = (Ok inst, w0') →
  w0' = w0 ∧
  default_headers inst
  = (if Js.truthy (cookies w0 !! "access_token")
     then {[ "Authorization" :=
               "Bearer " +:+ Js.to_string (cookies w0 !! "access_token") ]}
     else ∅) ∧
  request_interceptors inst
  = [interceptor isAccessTokenExpired getRefreshedToken setAuthUser
       (cookies w0 !! "access_token") (cookies w0 !! "refresh_token")].
Proof.
  unfold useAxios, bind, ret, Cookies.get. intros H.
  injection H as <- <-. repeat split; reflexivity.
Qed.

Lemma request_of_useAxios (w0 w0' w : World) (inst : AxiosInstance)
    (config : Request) :
  useAxios isAccessTokenExpired getRefreshedToken setAuthUser API_BASE_URL w0
  = (Ok inst, w0') →
  axios_request inst config w
  = interceptor isAccessTokenExpired getRefreshedToken setAuthUser
      (cookies w0 !! "access_token") (cookies w0 !! "refresh_token")
      (merge_config inst config) w.
Proof.
  intros H. apply useAxios_inv in H as (_ & _ & Hf).
  unfold axios_request. rewrite Hf. simpl. apply bind_ret_r.
Qed.

(** A request that comes out of the interceptor is the one that went in,
    with at most its [Authorization] header replaced. *)
Lemma interceptor_output (a r : option string) (req out : Request)
    (w w' : World) :
  interceptor isAccessTokenExpired getRefreshedToken setAuthUser a r req w
  = (Ok out, w') →
  out = req ∨ ∃ v, out = set_header "Authorization" v req.
Proof.
  unfold interceptor.
  destruct (negb (Js.truthy a) || negb (Js.truthy r)).
  { intros [= <- _]. now left. }
  unfold bind at 1.
  destruct (isAccessTokenExpired (Js.to_string a) w) as [[[] | e] w1];
    simpl; [| intros [= <- _]; now left | discriminate].
  unfold try_catch, bind, console_log, ret.
  destruct (getRefreshedToken (Js.to_string r) w1) as [[resp | e] w2].
  - destruct (setAuthUser (access resp) (refresh resp) w2) as [[[] | e] w3].
    + intros [= <- _]. right. eauto.
    + intros [= <- _]. now left.
  - intros [= <- _]. now left.
Qed.

(** X1: whatever the helpers do, the request that the interceptor returns
    is the request it was given with at most its [Authorization] header
    replaced: the address, the method and every other header, whoever put
    it there, come out as they went in. *)
Theorem interceptor_touches_only_authorization (a r : option string)
    (req out : Request) (w w' : World) :
  interceptor isAccessTokenExpired getRefreshedToken setAuthUser a r req w
  = (Ok out, w') →
  url out = url req ∧
  method out = method req ∧
  ∀ k, k ≠ "Authorization" → headers out !! k = headers req !! k.
Proof.
  intros Hrun.
  destruct (interceptor_output _ _ _ _ _ _ Hrun) as [-> | [v ->]].
  - repeat split; reflexivity.
  - repeat split; try reflexivity. intros k Hk. simpl.
    apply lookup_insert_ne. congruence.
Qed.

(** X2: the expiry test runs outside the [try] block.  With both
    credentials stored, an error thrown by it is the outcome of the request:
    nothing is sent, nothing is logged, no renewal is attempted, and the tab
    is left as the test left it. *)
Theorem expiry_test_error_escapes (w0 w0' w w1 : World)
    (inst : AxiosInstance) (config : Request) (a r : string) (e : Error) :
  useAxios isAccessTokenExpired getRefreshedToken setAuthUser API_BASE_URL w0
  = (Ok inst, w0') →
  stored "access_token" w0 a →
  stored "refresh_token" w0 r →
  isAccessTokenExpired a w = (Throw e, w1) →
  axios_request inst config w = (Throw e, w1).
Proof.
  intros Hc Ha Hr He. rewrite (request_of_useAxios _ _ _ _ _ Hc).
  unfold interceptor.
  destruct (truthy_stored _ _ _ Ha) as [-> ->].
  destruct (truthy_stored _ _ _ Hr) as [-> _].
  unfold bind. simpl. now rewrite He.
Qed.

(** X3: inside the [try] block every error is absorbed the same way.  If the
    renewal helper throws, or if it returns and the persisting helper then
    throws, the request goes out exactly as axios prepared it, old header
    included, one line is written to the console, and whatever the helpers
    did to the tab before throwing stays done. *)
Theorem renewal_error_sends_request_as_prepared (w0 w0' w w1 w2 : World)
    (inst : AxiosInstance) (config : Request) (a r : string) (e : Error) :
  useAxios isAccessTokenExpired getRefreshedToken setAuthUser API_BASE_URL w0
  = (Ok inst, w0') →
  stored "access_token" w0 a →
  stored "refresh_token" w0 r →
  isAccessTokenExpired a w = (Ok true, w1) →
  (getRefreshedToken r w1 = (Throw e, w2) ∨
   ∃ resp wr,
     getRefreshedToken r w1 = (Ok resp, wr) ∧
     setAuthUser (access resp) (refresh resp) wr = (Throw e, w2)) →
  axios_request inst config w
  = (Ok (merge_config inst config),
     with_console
       ("Token refresh failed, user needs to re-authenticate" :: console w2)
       w2).
Proof.
  intros Hc Ha Hr He Hfail. rewrite (request_of_useAxios _ _ _ _ _ Hc).
  unfold interceptor.
  destruct (truthy_stored _ _ _ Ha) as [-> ->].
  destruct (truthy_stored _ _ _ Hr) as [-> ->].
  simpl. unfold bind at 1. rewrite He. simpl.
  unfold try_catch, bind.
  destruct Hfail as [-> | (resp & wr & -> & ->)]; reflexivity.
Qed.

End AnyHelpers.

(** ** Strings *)

Section StrFacts.

Lemma trimStart_head (s t : list N) (c : N) :
  Str.trimStart s = c :: t → Str.is_whitespace c = false.
Proof.
  induction s as [| d s IH]; simpl; [discriminate |].
  destruct (Str.is_whitespace d) eqn:Hd; [exact IH |].
  now intros [= <- _].
Qed.

Lemma trimStart_nil (s : list N) :
  Str.trimStart s = [] ↔ forallb Str.is_whitespace s = true.
Proof.
  induction s as [| d s IH]; simpl; [easy |].
  destruct (Str.is_whitespace d); simpl; [exact IH | easy].
Qed.

Lemma forallb_reverse (f : N → bool) (s : list N) :
  forallb f (reverse s) = forallb f s.
Proof.
  induction s as [| d s IH]; [reflexivity |].
  rewrite reverse_cons, forallb_app, IH. simpl.
  rewrite andb_true_r. apply andb_comm.
Qed.

(** Trimming leaves nothing exactly when every code unit is white space. *)
Lemma trim_nil (s : list N) :
  Str.trim s = [] ↔ forallb Str.is_whitespace s = true.
Proof.
  unfold Str.trim, Str.trimEnd. split.
  - intros H. apply (f_equal reverse) in H.
    rewrite reverse_involutive, reverse_nil in H.
    apply trimStart_nil in H. rewrite forallb_reverse in H.
    destruct (Str.trimStart s) as [| c t] eqn:Hs.
    + now apply trimStart_nil.
    + apply trimStart_head in Hs. simpl in H. now rewrite Hs in H.
  - intros H. apply trimStart_nil in H. rewrite H. reflexivity.
Qed.

Lemma split_cons (sep : N) (s : list N) :
  ∃ piece pieces, Str.split sep s = piece :: pieces.
Proof.
  induction s as [| c s (p & ps & IH)]; simpl; [eauto |].
  destruct (c =? sep)%N; [eauto |]. rewrite IH. eauto.
Qed.

(** The first piece of a split is the part of the string before the first
    separator. *)
Lemma split_head (sep : N) (s : list N) :
  ∃ piece pieces tail,
    Str.split sep s = piece :: pieces ∧
    s = (piece ++ tail)%list ∧
    (sep ∉ piece) ∧
    (tail = [] ∨ ∃ t, tail = sep :: t).
Proof.
  induction s as [| c s (p & ps & tl & IH & Hs & Hp & Htl)]; simpl.
  - exists [], [], []. repeat split; [apply not_elem_of_nil | now left].
  - destruct (N.eqb_spec c sep) as [-> | Hne].
    + exists [], (Str.split sep s), (sep :: s).
      repeat split; [apply not_elem_of_nil | right; eauto].
    + rewrite IH. exists (c :: p), ps, tl.
      repeat split; [now rewrite Hs | | exact Htl].
      rewrite elem_of_cons. intros [-> | Hin]; [now apply Hne | now apply Hp].
Qed.

(** Joining the first code units of the pieces gives the empty string
    exactly when the string holds nothing but separators. *)
Lemma first_units_nil (sep : N) (s : list N) :
  Str.join_empty (Str.at0 <$> Str.split sep s) = [] ↔ Forall (eq sep) s.
Proof.
  induction s as [| c s IH]; simpl.
  - split; [constructor | reflexivity].
  - destruct (N.eqb_spec c sep) as [-> | Hne].
    + unfold Str.join_empty in *. simpl. rewrite IH.
      split; [now constructor | now inversion 1].
    + destruct (split_cons sep s) as (p & ps & ->).
      unfold Str.join_empty. simpl. split; [discriminate |].
      inversion 1; subst. now contradiction Hne.
Qed.

End StrFacts.

(** ** The navigation bar *)

Section Header.

Import BaseHeader.

(** X4: submitting the search box always cancels the default submission of
    the form; it navigates exactly when the query holds a code unit that is
    not white space, and then to the search page with the query as typed,
    neither trimmed nor escaped. *)
Theorem search_submit_navigates_unless_blank (searchQuery : list N) :
  handleSearchSubmit searchQuery
  = if forallb Str.is_whitespace searchQuery
    then [PreventDefault]
    else [PreventDefault;
          Navigate (Str.of_string "/search/?search=" ++ searchQuery)%list].
Proof.
  unfold handleSearchSubmit.
  destruct (forallb Str.is_whitespace searchQuery) eqn:Hq.
  - apply trim_nil in Hq. now rewrite Hq.
  - destruct (Str.trim searchQuery) eqn:Ht; [| reflexivity].
    apply trim_nil in Ht. congruence.
Qed.

Variable toUpperCase : list N → list N.

(** Without a full name the initials are never empty. *)
Lemma initials_fallback_nonempty (user : option UserView) :
  Str.truthy_opt (full_name_of user) = false →
  getUserInitials toUpperCase user ≠ [].
Proof.
  intros Hf. unfold getUserInitials. rewrite Hf.
  destruct (toUpperCase <$> first_of (username_of user)) as [[| c u] |];
    simpl; discriminate.
Qed.

(** X5: the initials shown in the avatar.  With a full name they have at
    most two code units.  They are empty, a blank avatar, exactly when the
    full name is a non-empty string of spaces; the user name and the letter
    U are used only when there is no full name, never for a blank one. *)
Theorem initials_shape (user : option UserView) :
  (∀ s, toUpperCase s = [] ↔ s = []) →
  (Str.truthy_opt (full_name_of user) = true →
   (length (getUserInitials toUpperCase user) ≤ 2)%nat) ∧
  (getUserInitials toUpperCase user = [] ↔
   ∃ full_name,
     full_name_of user = Some full_name ∧
     full_name ≠ [] ∧
     Forall (eq 32%N) full_name).
Proof.
  intros Hupper. split.
  - intros Hf. unfold getUserInitials. rewrite Hf.
    rewrite length_take. apply Nat.le_min_l.
  - destruct (Str.truthy_opt (full_name_of user)) eqn:Hf.
    + unfold getUserInitials. rewrite Hf.
      destruct (full_name_of user) as [[| c fn] |]; try discriminate.
      simpl default. split.
      * intros H. exists (c :: fn). split; [reflexivity |].
        split; [discriminate |].
        apply (first_units_nil 32), Hupper.
        destruct (toUpperCase _); [reflexivity | discriminate H].
      * intros (fn' & [= <-] & _ & Hall).
        apply (first_units_nil 32), Hupper in Hall. now rewrite Hall.
    + split.
      * intros H. now apply initials_fallback_nonempty in H.
      * intros (fn & Hfn & Hne & _). rewrite Hfn in Hf.
        destruct fn; [contradiction | discriminate].
Qed.

(** X6: the name in the welcome banner.  When the full name starts with a
    code unit other than a space, the banner shows the part of the full name
    before its first space; when there is no full name, or it is empty or
    starts with a space, the banner shows the user name instead, or nothing
    if there is none. *)
Theorem welcome_name_is_first_word (user : option UserView) :
  (∀ c rest,
     full_name_of user = Some (c :: rest) → c ≠ 32%N →
     ∃ first tail,
       Index.welcome_name user = Some first ∧
       c :: rest = (first ++ tail)%list ∧
       first ≠ [] ∧
       (32%N ∉ first) ∧
       (tail = [] ∨ ∃ t, tail = 32%N :: t)) ∧
  (full_name_of user = None ∨ full_name_of user = Some [] ∨
   (∃ rest, full_name_of user = Some (32%N :: rest)) →
   Index.welcome_name user = username_of user).
Proof.
  unfold Index.welcome_name. split.
  - intros c rest Hfn Hc. rewrite Hfn.
    destruct (split_head 32 (c :: rest)) as (p & ps & tl & Hs & Heq & Hp & Htl).
    rewrite Hs. simpl head.
    destruct p as [| d p].
    + simpl in Heq. subst tl. destruct Htl as [| [t [= -> _]]]; easy.
    + simpl. exists (d :: p), tl. repeat split; try assumption. discriminate.
  - intros [-> | [-> | [rest ->]]]; reflexivity.
Qed.

End Header.

(** ** The loaders of the home page *)

Section Loaders.

Variable num : Type.
Variable num_truthy : num → bool.
Variable num_to_string : num → string.

(** X7: the course list taken from a response body.  A plain array is taken
    as it is, and a paginated body gives its [results] array; every other
    body (null, text, a number, an object whose [results] is missing or is
    not an array) gives the empty list. *)
Theorem course_list_from_either_shape :
  (∀ items : list (JsVal num),
     Index.array_or_empty num
       (Index.courseData num num_truthy (JArray items)) = items) ∧
  (∀ (fields : gmap string (JsVal num)) (items : list (JsVal num)),
     fields !! "results" = Some (JArray items) →
     Index.array_or_empty num
       (Index.courseData num num_truthy (JObject fields)) = items) ∧
  (∀ data : JsVal num,
     (∀ items, data ≠ JArray items) →
     (∀ fields items,
        data = JObject fields → fields !! "results" ≠ Some (JArray items)) →
     Index.array_or_empty num (Index.courseData num num_truthy data) = []).
Proof.
  unfold Index.courseData, Index.or_else. split; [| split].
  - reflexivity.
  - intros fields items H. simpl. now rewrite H.
  - intros data Harr Hobj.
    destruct data as [| | b | n | s | items | fields]; simpl.
    + reflexivity.
    + reflexivity.
    + now destruct b.
    + now destruct (num_truthy n).
    + now destruct (negb (String.eqb s "")).
    + now destruct (Harr items eq_refl).
    + specialize (Hobj fields).
      destruct (fields !! "results") as [[| | b | n | s | items | fs] |];
        simpl; try reflexivity.
      * now destruct b.
      * destruct (num_truthy n) eqn:Hn; simpl; rewrite ?Hn; reflexivity.
      * destruct (negb (String.eqb s "")) eqn:Hs; simpl; rewrite ?Hs;
          reflexivity.
      * now destruct (Hobj items eq_refl eq_refl).
Qed.

Variable isAccessTokenExpired : string → M bool.
Variable getRefreshedToken : string → M TokenResponse.
Variable setAuthUser : string → string → M unit.
Variable API_BASE_URL : string.
Variable adapter : Request → M (JsVal num).
Variable inspect : Error → string.

(** X8: loading the course list never throws and never leaves the page
    loading, whatever the helpers of the hook and the transport do.  When
    the request comes back the list is the one taken from the body; when
    anything on the way throws, the expiry test included, the error is
    logged and the list shown before is replaced by the empty list.  The
    enrolled courses are not touched. *)
Theorem fetchCourses_always_settles (st : IndexState num) (w : World) :
  ∃ st' w',
    Index.fetchCourses num num_truthy isAccessTokenExpired getRefreshedToken
      setAuthUser API_BASE_URL adapter inspect st w = (Ok st', w') ∧
    isLoading st' = false ∧
    enrolledCourses st' = enrolledCourses st ∧
    match
      Index.get_data num isAccessTokenExpired getRefreshedToken setAuthUser
        API_BASE_URL adapter "/course/course-list/" w
    with
    | (Ok data, w1) =>
        courses st'
        = Index.array_or_empty num (Index.courseData num num_truthy data) ∧
        w' = w1
    | (Throw e, w1) =>
        courses st' = [] ∧
        w' = with_console (inspect e :: console w1) w1
    end.
Proof.
  unfold Index.fetchCourses, bind, try_catch.
  destruct (Index.get_data _ _ _ _ _ _ _ w) as [[data | e] w1];
    do 2 eexists; repeat split.
Qed.

(** X9: loading the enrolled courses.  Without a user id, or with one that
    is falsy, nothing happens at all: no request, no change of the page or
    of the tab.  With one, the call never throws, leaves the course list
    and the loading flag alone, and empties the enrolled list when anything
    on the way throws. *)
Theorem fetchEnrolledCourses_guarded (userId : option num)
    (st : IndexState num) (w : World) :
  ∃ st' w',
    Index.fetchEnrolledCourses num num_truthy num_to_string
      isAccessTokenExpired getRefreshedToken setAuthUser API_BASE_URL
      adapter inspect userId st w = (Ok st', w') ∧
    courses st' = courses st ∧
    isLoading st' = isLoading st ∧
    (Index.truthy num num_truthy (from_option JNumber JUndefined userId)
     = false →
     st' = st ∧ w' = w) ∧
    (∀ n e w1,
       userId = Some n → num_truthy n = true →
       Index.get_data num isAccessTokenExpired getRefreshedToken setAuthUser
         API_BASE_URL adapter
         ("/student/course-list/" +:+ num_to_string n +:+ "/") w
       = (Throw e, w1) →
       enrolledCourses st' = [] ∧
       w' = with_console (inspect e :: console w1) w1).
Proof.
  unfold Index.fetchEnrolledCourses.
  destruct userId as [n |]; simpl.
  - destruct (num_truthy n) eqn:Hn.
    + unfold bind, try_catch.
      destruct (Index.get_data _ _ _ _ _ _ _ w) as [[data | e] w1] eqn:Hget.
      * eexists _, w1. split; [reflexivity |].
        split; [reflexivity |]. split; [reflexivity |].
        split; [discriminate |].
        intros n' e' w1' [= <-] _ Hthrow. rewrite Hget in Hthrow.
        discriminate Hthrow.
      * eexists _, _. split; [reflexivity |].
        split; [reflexivity |]. split; [reflexivity |].
        split; [discriminate |].
        intros n' e' w1' [= <-] _ Hthrow. rewrite Hget in Hthrow.
        injection Hthrow as <- <-. split; reflexivity.
    + exists st, w. split; [reflexivity |].
      split; [reflexivity |]. split; [reflexivity |].
      split; [now split |].
      intros n' e' w1' [= <-] Hn'. congruence.
  - exists st, w. split; [reflexivity |].
    split; [reflexivity |]. split; [reflexivity |].
    split; [now split | discriminate].
Qed.

End Loaders.

(** ** The sample session, continued *)

Section DemoRuns.

Import Sample Demo BaseHeader.

(** Ten minutes after issue the home page loads its courses: the token is
    renewed on the way and the paginated answer becomes the list. *)
Example courses_loaded_after_renewal :
  Index.fetchCourses Z nonzero (Auth.isAccessTokenExpired decode)
    Auth.getRefreshedToken Auth.setAuthUser base course_backend inspect
    loading (tab jar 600)
  = (Ok (mkIndexState [JString "python"; JString "react"] [] false),
     mkWorld {[ "access_token" := "access-2"; "refresh_token" := "refresh-2" ]}
             600 one_use_backend ["refresh-1"] []).
Proof. reflexivity. Qed.

(** The same with the refresh endpoint out of reach: the stale token is
    refused, the list is emptied and the page stops loading. *)
Example courses_emptied_when_refused :
  Index.fetchCourses Z nonzero (Auth.isAccessTokenExpired decode)
    Auth.getRefreshedToken Auth.setAuthUser base course_backend inspect
    loading (tab_offline jar 600)
  = (Ok (mkIndexState [] [] false),
     mkWorld jar 600 offline_backend ["refresh-1"]
             ["AxiosError";
              "Token refresh failed, user needs to re-authenticate"]).
Proof. reflexivity. Qed.

Example initials_of_ada :
  getUserInitials ascii_upper ada = Str.of_string "AL".
Proof. reflexivity. Qed.

Lemma interceptor_touches_only_authorization_witness :
  url cart_post_sent = url cart_post_prepared ∧
  method cart_post_sent = method cart_post_prepared ∧
  ∀ k, k ≠ "Authorization" →
    headers cart_post_sent !! k = headers cart_post_prepared !! k.
Proof.
  apply (interceptor_touches_only_authorization
           (Auth.isAccessTokenExpired decode) Auth.getRefreshedToken
           Auth.setAuthUser (Some "access-1") (Some "refresh-1")
           cart_post_prepared cart_post_sent (tab jar 600)
           (mkWorld
              {[ "access_token" := "access-2"; "refresh_token" := "refresh-2" ]}
              600 one_use_backend ["refresh-1"] [])).
  reflexivity.
Defined.

Lemma expiry_test_error_escapes_witness :
  axios_request fragile_instance course_list (tab jar 60)
  = (Throw (TypeError "Invalid token specified"), tab jar 60).
Proof.
  apply (expiry_test_error_escapes throwing_expiry_test
           Auth.getRefreshedToken Auth.setAuthUser base (tab jar 0)
           (tab jar 0) (tab jar 60) (tab jar 60) fragile_instance
           course_list "access-1" "refresh-1").
  - reflexivity.
  - split; [reflexivity | discriminate].
  - split; [reflexivity | discriminate].
  - reflexivity.
Defined.

Lemma renewal_error_sends_request_as_prepared_witness :
  axios_request half_persisting_instance course_list (tab jar 600)
  = (Ok (merge_config half_persisting_instance course_list),
     with_console
       ["Token refresh failed, user needs to re-authenticate"]
       (mkWorld
          {[ "access_token" := "access-2"; "refresh_token" := "refresh-1" ]}
          600 one_use_backend ["refresh-1"] [])).
Proof.
  apply (renewal_error_sends_request_as_prepared
           (Auth.isAccessTokenExpired decode) Auth.getRefreshedToken
           throwing_setAuthUser base (tab jar 0) (tab jar 0) (tab jar 600)
           (tab jar 600)
           (mkWorld
              {[ "access_token" := "access-2"; "refresh_token" := "refresh-1" ]}
              600 one_use_backend ["refresh-1"] [])
           half_persisting_instance course_list "access-1" "refresh-1"
           (TypeError "Invalid token specified")).
  - reflexivity.
  - split; [reflexivity | discriminate].
  - split; [reflexivity | discriminate].
  - reflexivity.
  - right. exists pair2, (with_renewals ["refresh-1"] (tab jar 600)).
    split; reflexivity.
Defined.

Lemma initials_shape_witness :
  (Str.truthy_opt (full_name_of blank_name) = true →
   (length (getUserInitials ascii_upper blank_name) ≤ 2)%nat) ∧
  (getUserInitials ascii_upper blank_name = [] ↔
   ∃ full_name,
     full_name_of blank_name = Some full_name ∧
     full_name ≠ [] ∧
     Forall (eq 32%N) full_name).
Proof.
  apply (initials_shape ascii_upper blank_name).
  intros s. destruct s; split; [reflexivity | reflexivity | | ]; discriminate.
Defined.

Lemma welcome_name_is_first_word_witness :
  ∃ first tail,
    Index.welcome_name ada = Some first ∧
    Str.of_string "ada lovelace" = (first ++ tail)%list ∧
    first ≠ [] ∧
    (32%N ∉ first) ∧
    (tail = [] ∨ ∃ t, tail = 32%N :: t).
Proof.
  apply (proj1 (welcome_name_is_first_word ada) 97%N
           (Str.of_string "da lovelace")).
  - reflexivity.
  - discriminate.
Defined.

Lemma course_list_from_either_shape_witness :
  Index.array_or_empty Z (Index.courseData Z nonzero paginated)
  = [JString "python"; JString "react"].
Proof.
  apply (proj1 (proj2 (course_list_from_either_shape Z nonzero))
           {[ "count" := JNumber 2%Z;
              "results" := JArray [JString "python"; JString "react"] ]}).
  reflexivity.
Defined.

Lemma fetchEnrolledCourses_guarded_witness :
  ∃ st' w',
    Index.fetchEnrolledCourses Z nonzero (fun _ => "0")
      (Auth.isAccessTokenExpired decode) Auth.getRefreshedToken
      Auth.setAuthUser base course_backend inspect (Some 0%Z) loading
      (tab jar 600)
    = (Ok st', w') ∧
    st' = loading ∧ w' = tab jar 600.
Proof.
  destruct (fetchEnrolledCourses_guarded Z nonzero (fun _ => "0")
              (Auth.isAccessTokenExpired decode) Auth.getRefreshedToken
              Auth.setAuthUser base course_backend inspect (Some 0%Z)
              loading (tab jar 600))
    as (st' & w' & Hrun & _ & _ & Hguard & _).
  exists st', w'. split; [exact Hrun |]. apply Hguard. reflexivity.
Defined.

End DemoRuns.
